(** * daydream3.5: character-creation rules, checked against their description

    A shallow embedding of [dnd35/srd.py] (the legacy reference catalog) and
    of [dnd35e/concepts.py] (the core concept model), followed by the
    properties stated about them.

    Python integers are unbounded, so they are [Z]; Python's [//] is
    [Z.div], which rounds toward minus infinity for a positive divisor.
    Python strings are [string].  A call that may raise returns a [result]. *)

From Stdlib Require Import ZArith Lia.
From stdpp Require Import base option list strings gmap fin_maps.

Local Open Scope string_scope.
Local Open Scope Z_scope.

(** ** Exceptions *)

(** The built-in exceptions the modelled code can raise. *)
Inductive exn : Set :=
| ValueError
| KeyError
| IndexError
| TypeError
| AttributeError.

Inductive result (A : Type) : Type :=
| Ok (a : A)
| Raise (e : exn).
Arguments Ok {A} a.
Arguments Raise {A} e.

#[export] Instance result_ret : MRet result := fun _ a => Ok a.

#[export] Instance result_bind : MBind result :=
  fun _ _ k r =>
    match r with
    | Ok a => k a
    | Raise e => Raise e
    end.

(** ** The legacy lineage: [dnd35] *)

Module dnd35.

(** Modelled from the spec: [dnd35/concepts.py] is not among the sources.
    [Modifier] called with positional descriptions and keyword sub-bonuses: free-text descriptive
    bonuses and named sub-bonuses, kept as they are passed. *)
Record Modifier : Set := {
  descriptions : list string;
  subbonuses : list (string * Z)
}.

(** Modelled from the spec: [Special(name, **named_modifiers)], a named
    special ability with optional per-statistic Modifiers. *)
Record Special : Set := {
  special_name : string;
  named_modifiers : list (string * Modifier)
}.

(** Modelled from the spec: [Size(modifier_value)], a plain integer scale
    read back as [magnitude]. *)
Record Size : Set := { magnitude : Z }.

(** The values that the catalog passes as race features. *)
Inductive Feature : Set :=
| FInt (z : Z)
| FSpecial (s : Special)
| FModifier (m : Modifier)
| FNames (l : list string).

(** Modelled from the spec: [Race(name, size, speed, number_of_feats,
    skill_points_per_level, languages, bonus_languages, favored_class,
    **features)].  The catalog leaves [number_of_feats] and
    [skill_points_per_level] out for two of its races and passes [None] for
    two other arguments; what is not supplied, or is [None], is [None] here.
    [features] holds the remaining keyword arguments in call order. *)
Record Race : Set := {
  name : string;
  size : Size;
  speed : Z;
  number_of_feats : option Z;
  skill_points_per_level : option Z;
  languages : list string;
  bonus_languages : option (list string);
  favored_class : option string;
  features : list (string * Feature)
}.

(** [getattr(race, feature)] for a feature passed by keyword. *)
Fixpoint feature (kws : list (string * Feature)) (k : string) : option Feature :=
  match kws with
  | [] => None
  | (k', v) :: kws' => if String.eqb k' k then Some v else feature kws' k
  end.

(** [dnd35/srd.py] *)
Module srd.

(* Sizes *)
Definition fine : Size := {| magnitude := 8 |}.
Definition diminutive : Size := {| magnitude := 4 |}.
Definition tiny : Size := {| magnitude := 2 |}.
Definition small : Size := {| magnitude := 1 |}.
Definition medium : Size := {| magnitude := 0 |}.
Definition large : Size := {| magnitude := -1 |}.
Definition huge : Size := {| magnitude := -2 |}.
Definition gargantuan : Size := {| magnitude := -4 |}.
Definition colossal : Size := {| magnitude := -8 |}.

(** The size definitions in the order the module makes them. *)
Definition sizes : list (string * Size) :=
  [ ("fine", fine); ("diminutive", diminutive); ("tiny", tiny);
    ("small", small); ("medium", medium); ("large", large);
    ("huge", huge); ("gargantuan", gargantuan); ("colossal", colossal) ].

(* Special *)
Definition text (l : list string) : Modifier :=
  {| descriptions := l; subbonuses := [] |}.

Definition darkvision : Special :=
  {| special_name := "Darkvision"; named_modifiers := [] |}.
Definition stonecunning : Special :=
  {| special_name := "Stonecunning";
     named_modifiers :=
       [ ("search", text ["+2 racial bonus to notice unusual stonework"]) ] |}.
Definition stability : Special :=
  {| special_name := "Stability";
     named_modifiers :=
       [ ("STR", text ["+4 on ability checks to resist being bull rushed or tripped when standing on the ground"]) ] |}.
Definition low_light_vision : Special :=
  {| special_name := "Low-Light Vision"; named_modifiers := [] |}.

(* Races *)
Definition human : Race :=
  {| name := "Human";
     size := medium;
     speed := 30;
     number_of_feats := Some 1;
     skill_points_per_level := Some 1;
     languages := ["Common"];
     bonus_languages := None;
     favored_class := None;
     features := [] |}.

Definition dwarf : Race :=
  {| name := "Dwarf";
     size := medium;
     speed := 20;
     number_of_feats := None;
     skill_points_per_level := None;
     languages := ["Common"; "Dwarven"];
     bonus_languages :=
       Some ["Giant"; "Gnome"; "Goblin"; "Orc"; "Terran"; "Undercommon"];
     favored_class := Some "Fighter";
     features :=
       [ ("constitution", FInt 2);
         ("charisma", FInt (-2));
         ("darkvision", FSpecial darkvision);
         ("stonecunning", FSpecial stonecunning);
         ("weapon_familiarity",
           FSpecial {| special_name := "Weapon Familiarity";
                       named_modifiers := [] |});
         ("stability", FSpecial stability);
         ("saving_throws",
           FModifier (text
             [ "+2 racial bonus on saving throws against poison.";
               "+2 racial bonus on saving throws against spells and spell-like effects." ]));
         ("attack_bonus",
           FModifier (text
             [ "+1 racial bonus on attack rolls against orcs and goblinoids." ]));
         ("armor_class",
           FModifier (text
             [ "+4 dodge bonus to Armor Class against monsters of the giant type." ]));
         ("appraise",
           FModifier (text
             [ "+2 racial bonus on Appraise checks that are related to stone or metal items." ]));
         ("craft",
           FModifier (text
             [ "+2 racial bonus on Craft checks that are related to stone or metal." ])) ] |}.

Definition elf_save : Modifier :=
  text [ "Immunity to magic sleep effects";
         "+2 racial saving throw bonus against enchantment spells or effects." ].

Definition racial (z : Z) : Modifier :=
  {| descriptions := []; subbonuses := [("racial", z)] |}.

Definition elf : Race :=
  {| name := "Elf";
     size := medium;
     speed := 30;
     number_of_feats := None;
     skill_points_per_level := None;
     languages := ["Common"; "Elven"];
     bonus_languages :=
       Some ["Draconic"; "Gnoll"; "Gnome"; "Goblin"; "Orc"; "Sylvan"];
     favored_class := Some "Wizard";
     features :=
       [ ("fortitude", FModifier elf_save);
         ("reflex", FModifier elf_save);
         ("will", FModifier elf_save);
         ("low_light_vision", FSpecial low_light_vision);
         ("feats",
           FNames [ "Martial Weapon (longsword)"; "Martial Weapon (rapier)";
                    "Martial Weapon (longbow)"; "Martial Weapon (shortbow)" ]);
         ("listen", FModifier (racial 2));
         ("search", FModifier (racial 2));
         ("spot", FModifier (racial 2)) ] |}.

End srd.

End dnd35.

(** Strictly decreasing sequences of integers. *)
Fixpoint decreasing (l : list Z) : Prop :=
  match l with
  | x :: ((y :: _) as l') => y < x /\ decreasing l'
  | _ => True
  end.

(** ** The numeric primitives used by the core model: [dnd35e.numbers] *)

(** Modelled from the spec: [dnd35e/numbers.py] is not among the sources.
    [ModifierType(name)]: a category tag, with identity by name. *)
Record ModifierType : Set := { mt_name : string }.

(** [dnd35e/numbers.py] is not among the sources.  [concepts.py] uses its
    [Modifier] through the operations below, which are taken as parameters:
    the two constructor forms [Modifier(value, type)] and [Modifier()],
    [int(m)], [m.type], [-m], [m1 + m2] and [k * m] for an integer [k]. *)
Class Numbers : Type := {
  Modifier : Type;
  Modifier_new : Z -> ModifierType -> Modifier;
  Modifier_zero : Modifier;
  Modifier_int : Modifier -> Z;
  Modifier_type : Modifier -> option ModifierType;
  Modifier_neg : Modifier -> Modifier;
  Modifier_add : Modifier -> Modifier -> Modifier;
  Modifier_rmul : Z -> Modifier -> Modifier
}.

(** Modelled from the spec: a Modifier is an integer-valued bonus tagged with
    a ModifierType, possibly carrying free-text descriptive bonuses.  Two
    Modifiers combine by adding their values and concatenating their text;
    negation flips the sign of the value only; a Modifier built with no
    arguments is the zero bonus; converting to an integer gives the value.
    Scaling by an integer scales the value. *)
Module SpecModifier.

Record t : Set := {
  value : Z;
  type : option ModifierType;
  notes : list string
}.

Definition new (v : Z) (ty : ModifierType) : t :=
  {| value := v; type := Some ty; notes := [] |}.

Definition zero : t := {| value := 0; type := None; notes := [] |}.

Definition neg (m : t) : t :=
  {| value := - value m; type := type m; notes := notes m |}.

Definition add (a b : t) : t :=
  {| value := value a + value b;
     type := match type a with Some ty => Some ty | None => type b end;
     notes := notes a ++ notes b |}.

Definition rmul (k : Z) (m : t) : t :=
  {| value := k * value m; type := type m; notes := notes m |}.

End SpecModifier.

(** The operations of [concepts.py] on this model. *)
Definition spec_numbers : Numbers :=
  {| Modifier := SpecModifier.t;
     Modifier_new := SpecModifier.new;
     Modifier_zero := SpecModifier.zero;
     Modifier_int := SpecModifier.value;
     Modifier_type := SpecModifier.type;
     Modifier_neg := SpecModifier.neg;
     Modifier_add := SpecModifier.add;
     Modifier_rmul := SpecModifier.rmul |}.

(** ** The core model: [dnd35e/concepts.py] *)

(** *** class Size *)
Module Size.
Section defs.
Context {num : Numbers}.

Definition modifier_type : ModifierType := {| mt_name := "size" |}.

Record t : Type := { _name : string; _modifier : Modifier }.

Definition init (name : string) (modifier_value : Z) : t :=
  {| _name := name;
     _modifier := Modifier_new modifier_value modifier_type |}.

Definition name (self : t) : string := _name self.

Definition attack (self : t) : Modifier := Modifier_neg (_modifier self).

Definition armor_class (self : t) : Modifier := Modifier_neg (_modifier self).

Definition grapple (self : t) : Modifier := Modifier_rmul 4 (_modifier self).

Definition hide (self : t) : Modifier := Modifier_rmul (-4) (_modifier self).

End defs.
End Size.

(** *** class AbilityScore *)
Module AbilityScore.
Section defs.
Context {num : Numbers}.

Definition modifier_type : ModifierType := {| mt_name := "ability" |}.

Record t : Set := { score : Z }.

(** [__init__(self, score: int = 10)]: [None] stands for the argument left
    out. *)
Definition init (score : option Z) : t :=
  {| score := match score with Some s => s | None => 10 end |}.

Definition modifier (self : t) : Modifier :=
  Modifier_new ((score self - 10) / 2) modifier_type.

(** [__add__] with an integer operand. *)
Definition add (self : t) (other : Z) : t :=
  {| score := score self + other |}.

End defs.
End AbilityScore.

(** *** class AbilityType (a frozen dataclass) *)
Module AbilityType.

Record t : Set := { name : string; abbreviation : option string }.

(** [AbilityType(name)], the abbreviation defaulting to [None]. *)
Definition init (name : string) : t :=
  {| name := name; abbreviation := None |}.

Definition str (self : t) : string :=
  match abbreviation self with
  | Some a => name self ++ " (" ++ a ++ ")"
  | None => name self
  end.

End AbilityType.

(** *** Values held in instance attributes

    [Ability] and [Race] receive arbitrary keyword arguments and store them
    with [setattr]; their instances are modelled by their attribute
    dictionary.  The values are those of the types listed: [None], an
    integer, a string, a list of strings, a set of strings, a Modifier, a
    Size and an AbilityType; none of them is a class, a dictionary or a
    callable, and objects of other types are outside the model. *)
Section values.
Context {num : Numbers}.

Inductive Value : Type :=
| VNone
| VInt (z : Z)
| VStr (s : string)
| VNames (l : list string)
| VSet (s : gset string)
| VModifier (m : Modifier)
| VSize (s : Size.t)
| VAbilityType (a : AbilityType.t).

(** Modelled from the spec: [a + b] where [dnd35e.numbers.Modifier], which
    is not among the sources, is an operand.  Two Modifiers are combined by
    [Modifier.__add__]; a Modifier and a value of an unrelated type signal
    an unsupported operation.  Among the other types listed, two integers
    add, two strings and two lists concatenate, and every other pair is
    unsupported: [None], sets, [Size] and [AbilityType] define no [+], and
    integers, strings and lists accept only their own type. *)
Definition py_add (a b : Value) : result Value :=
  match a, b with
  | VModifier x, VModifier y => Ok (VModifier (Modifier_add x y))
  | VInt x, VInt y => Ok (VInt (x + y))
  | VStr x, VStr y => Ok (VStr (x ++ y))
  | VNames x, VNames y => Ok (VNames (x ++ y))
  | _, _ => Raise TypeError
  end.

(** An instance: its [__dict__]. *)
Record object : Type := { dict : gmap string Value }.

Definition new_object : object := {| dict := ∅ |}.

(** Modelled from the spec: [core.Aggregator], the base class of [Ability],
    [Race], [ClassLevel] and [Character], is not among the sources.  Its
    [__setattr__] assigns the attribute by name, as [object.__setattr__]
    does for a name that is no property of the class; its bookkeeping of
    the names tracked for aggregation is left out, and its [__init__] is
    taken to set none of the attributes read below. *)
Definition store (self : object) (name : string) (v : Value) : object :=
  {| dict := <[name := v]> (dict self) |}.

(** [setattr(self, name, value)] on a name that is no property of the
    class.  Three names are descriptors of every instance: [__class__]
    accepts only a class and [__dict__] only a dictionary, so each raises
    [TypeError] for the values of the model, and [__weakref__] is not
    writable. *)
Definition object_setattr (self : object) (name : string) (v : Value)
    : result object :=
  if decide (name = "__class__") then Raise TypeError
  else if decide (name = "__dict__") then Raise TypeError
  else if decide (name = "__weakref__") then Raise AttributeError
  else Ok (store self name v).

(** Instance attribute lookup, raising [AttributeError] when absent. *)
Definition load (self : object) (name : string) : result Value :=
  match dict self !! name with
  | Some v => Ok v
  | None => Raise AttributeError
  end.

(** The keyword dictionary of a call, in call order. *)
Definition kwargs : Type := list (string * Value).

(** [kw.get(k)]. *)
Fixpoint kwargs_get (kw : kwargs) (k : string) : option Value :=
  match kw with
  | [] => None
  | (k', v) :: kw' => if decide (k' = k) then Some v else kwargs_get kw' k
  end.

End values.

(** *** class Ability *)
Module Ability.
Section defs.
Context {num : Numbers}.

Definition ignore : gset string := {["name"; "ability_type"; "description"]}.

Definition default_ability_type : AbilityType.t := AbilityType.init "Natural".

Definition t : Type := object.

(** [setattr(self, name, value)]: [name], [ability_type] and [description]
    are properties without a setter. *)
Definition setattr (self : t) (name : string) (v : Value) : result t :=
  if decide (name ∈ ignore) then Raise AttributeError
  else object_setattr self name v.

(** [__init__(self, name, ability_type=None, description='', **features)] *)
Definition init (name : string) (ability_type : option AbilityType.t)
    (description : option string) (features : kwargs) : result t :=
  let description := default "" description in
  let self := new_object in
  let self := store self "_name" (VStr name) in
  let self :=
    match ability_type with
    | None => store self "_ability_type" (VAbilityType (AbilityType.init ""))
    | Some _ => store self "_ability_type" (VAbilityType default_ability_type)
    end in
  let self := store self "_description" (VStr description) in
  let self := store self "_features" (VSet ∅) in
  foldl (fun acc kv => self ← acc; setattr self kv.1 kv.2) (Ok self) features.

Definition name (self : t) : result Value := load self "_name".

Definition ability_type (self : t) : result Value := load self "_ability_type".

Definition description (self : t) : result Value := load self "_description".

End defs.
End Ability.

(** *** class Race *)
Module Race.
Section defs.
Context {num : Numbers}.

Definition t : Type := object.

(** Class attributes. *)
Definition favored_class : string := "Any".

Definition bonus_languages : list string :=
  [ "Abyssal"; "Aquan"; "Auran"; "Celestial"; "Common"; "Draconic";
    "Dwarven"; "Elven"; "Giant"; "Gnome"; "Goblin"; "Gnoll"; "Halfling";
    "Ignan"; "Infernal"; "Orc"; "Sylvan"; "Terran"; "Undercommon" ].

(** [setattr(self, name, value)]: [fortitude], [reflex] and [will] are
    properties whose setters assign the private attribute. *)
Definition setattr (self : t) (name : string) (v : Value) : result t :=
  if decide (name = "fortitude") then Ok (store self "_fortitude" v)
  else if decide (name = "reflex") then Ok (store self "_reflex" v)
  else if decide (name = "will") then Ok (store self "_will" v)
  else object_setattr self name v.

Definition init (name : string) (size : Size.t) (speed : Z)
    (languages : list string) (bonus_languages : option (list string))
    (favored_class : option string) (features : kwargs) : result t :=
  let self := new_object in
  let self := store self "_name" (VStr name) in
  let self := store self "_size" (VSize size) in
  let self := store self "_speed" (VInt speed) in
  let self := store self "_languages" (VNames languages) in
  let self := store self "_fortitude" (VModifier Modifier_zero) in
  let self := store self "_reflex" (VModifier Modifier_zero) in
  let self := store self "_will" (VModifier Modifier_zero) in
  let self :=
    match bonus_languages with
    | Some l => store self "bonus_languages" (VNames l)
    | None => self
    end in
  let self :=
    match favored_class with
    | Some c => store self "favored_class" (VStr c)
    | None => self
    end in
  foldl (fun acc kv => self ← acc; setattr self kv.1 kv.2) (Ok self) features.

(** [getattr(self, name)] and [self.saving_throws] read an instance
    attribute; each [try] block catches [AttributeError] only. *)
Definition _save_bonus (self : t) (name : string) : result Value :=
  specific ←
    match load self name with
    | Raise AttributeError => Ok (VModifier Modifier_zero)
    | r => r
    end;
  generic ←
    match load self "saving_throws" with
    | Raise AttributeError => Ok (VModifier Modifier_zero)
    | r => r
    end;
  py_add generic specific.

(** [self._save_bonus(name)]: an instance attribute called [_save_bonus]
    shadows the method, and calling it raises [TypeError], as no value of
    the model is callable. *)
Definition call_save_bonus (self : t) (name : string) : result Value :=
  match dict self !! "_save_bonus" with
  | Some _ => Raise TypeError
  | None => _save_bonus self name
  end.

Definition fortitude (self : t) : result Value :=
  call_save_bonus self "_fortitude".

Definition reflex (self : t) : result Value := call_save_bonus self "_reflex".

Definition will (self : t) : result Value := call_save_bonus self "_will".

(** [self.favored_class]: the instance attribute when [__init__] has set
    one, the class attribute otherwise. *)
Definition read_favored_class (self : t) : Value :=
  match dict self !! "favored_class" with
  | Some v => v
  | None => VStr favored_class
  end.

(** [self.bonus_languages], read in the same way. *)
Definition read_bonus_languages (self : t) : Value :=
  match dict self !! "bonus_languages" with
  | Some v => v
  | None => VNames bonus_languages
  end.

End defs.
End Race.

(** *** Built-ins *)

(** [l[i]] on a list: a negative index counts from the end, an index out of
    range raises [IndexError]. *)
Definition list_getitem {A : Type} (l : list A) (i : Z) : result A :=
  let n := Z.of_nat (length l) in
  let j := if i <? 0 then i + n else i in
  if (0 <=? j) && (j <? n) then
    match l !! Z.to_nat j with
    | Some x => Ok x
    | None => Raise IndexError
    end
  else Raise IndexError.

(** [max(iterable)]: [ValueError] on an empty iterable. *)
Definition py_max (l : list Z) : result Z :=
  match l with
  | [] => Raise ValueError
  | x :: l' => Ok (foldl Z.max x l')
  end.

(** [d[k]] on a dict. *)
Definition dict_getitem `{Countable K} {V : Type} (d : gmap K V) (k : K)
    : result V :=
  match d !! k with
  | Some v => Ok v
  | None => Raise KeyError
  end.

(** [collections.Counter]. *)
Module Counter.
Section defs.
Context `{Countable K}.

(** [Counter.update(self, mapping)]: an empty counter takes the mapping as
    [dict.update] does, a non-empty one adds the counts. *)
Definition update (self mapping : gmap K Z) : gmap K Z :=
  if decide (self = ∅) then mapping ∪ self
  else map_fold (fun elem count acc => <[elem := count + default 0 (acc !! elem)]> acc)
         self mapping.

(** [Counter(mapping)] *)
Definition init (mapping : gmap K Z) : gmap K Z := update ∅ mapping.

End defs.
End Counter.

(** *** class Progression *)
Module Progression.
Section defs.
Context {num : Numbers}.

Record t : Type := { _modifiers : list Modifier }.

(** [__init__(self, modifier_name, *values)] *)
Definition init (modifier_name : string) (values : list Z) : t :=
  let modifier_type := {| mt_name := modifier_name |} in
  {| _modifiers := map (fun v => Modifier_new v modifier_type) values |}.

Definition len (self : t) : Z := Z.of_nat (length (_modifiers self)).

Definition getitem (self : t) (item : Z) : result Modifier :=
  list_getitem (_modifiers self) item.

Definition iter (self : t) : list Modifier := _modifiers self.

End defs.
End Progression.

(** *** class ClassFeature *)
Module ClassFeature.
Section defs.
Context {num : Numbers}.

Record t : Type := {
  name : string;
  description : string;
  progression : gmap Z Ability.t
}.

(** [__init__(self, name, description='', **progression)].  [num.ordinal]
    is not among the sources and is a parameter: it turns the keyword that
    declares a level into the key of the [progression] dictionary.
    [__getitem__] orders these keys against the integer level it is asked
    for, so a key is an integer.  A dictionary comprehension keeps the last
    value given for a key. *)
Definition init (ordinal : string -> Z) (name : string)
    (description : option string) (progression : list (string * Ability.t)) : t :=
  {| name := name;
     description := default "" description;
     progression :=
       foldl (fun d kv => <[ordinal kv.1 := kv.2]> d) ∅ progression |}.

(** The keys of [self.progression] that the generator expression of
    [__getitem__] lets through.  [max] does not depend on the order in
    which the dictionary is walked. *)
Definition candidates (self : t) (level : Z) : list Z :=
  filter (fun lvl => lvl <= level) (map_to_list (progression self)).*1.

Definition getitem (self : t) (level : Z) : result Ability.t :=
  level ← py_max (candidates self level);
  dict_getitem (progression self) level.

End defs.
End ClassFeature.

(** Modelled from the spec: [num.Die(sides)], a die-size descriptor with
    equality by side count. *)
Record Die : Set := { sides : Z }.

(** *** class Class *)
Module Class.
Section defs.
Context {num : Numbers}.

Record t : Type := {
  alignment_restriction : option (list string);
  hit_die : Die;
  class_skills : list string;
  skill_points_per_level : Z;
  base_attack_bonus : Progression.t;
  fort_save : Progression.t;
  ref_save : Progression.t;
  will_save : Progression.t;
  features : list ClassFeature.t
}.

End defs.
End Class.

(** *** class ClassLevel *)
Module ClassLevel.
Section defs.
Context {num : Numbers}.

Record t : Type := { class_ : Class.t; level : Z }.

Definition init (class_ : Class.t) (level : Z) : t :=
  {| class_ := class_; level := level |}.

Definition base_attack_bonus (self : t) : result Modifier :=
  Progression.getitem (Class.base_attack_bonus (class_ self)) (level self).

Definition fort_save (self : t) : result Modifier :=
  Progression.getitem (Class.fort_save (class_ self)) (level self).

Definition ref_save (self : t) : result Modifier :=
  Progression.getitem (Class.ref_save (class_ self)) (level self).

Definition will_save (self : t) : result Modifier :=
  Progression.getitem (Class.will_save (class_ self)) (level self).

End defs.
End ClassLevel.

(** *** class Feat *)
Module Feat.

Record t : Set := { name : string }.

End Feat.

(** *** class Character

    [Class] defines neither [__eq__] nor [__hash__]: as the keys of the
    [classes] dictionary its instances are told apart by identity, which a
    [positive] stands for. *)
Module Character.
Section defs.
Context {num : Numbers}.

Record t : Type := {
  race : Race.t;
  classes : gmap positive Z;
  feats : list Feat.t
}.

Definition init (race : Race.t) (classes : gmap positive Z)
    (feats : list Feat.t) : t :=
  {| race := race; classes := Counter.init classes; feats := feats |}.

(** [len(self.classes)] *)
Definition level (self : t) : Z := Z.of_nat (size (classes self)).

End defs.
End Character.

(** ** What the description says, where it differs from the code *)

(** The description's reading of a Progression: the first value it was
    built from belongs to level 1, the second to level 2, and so on. *)
Definition Progression_at_level {num : Numbers} (p : Progression.t) (level : Z)
    : option Modifier :=
  if 1 <=? level then Progression._modifiers p !! Z.to_nat (level - 1) else None.

(** What the code does instead: the Modifier at position [index] of the
    list, counted from zero, and [IndexError] past its end. *)
Definition Progression_at_index {num : Numbers} (p : Progression.t) (index : nat)
    : result Modifier :=
  match Progression._modifiers p !! index with
  | Some m => Ok m
  | None => Raise IndexError
  end.

(** The sum of the levels held, over all classes. *)
Definition summed_levels (classes : gmap positive Z) : Z :=
  map_fold (fun _ n acc => n + acc) 0 classes.

(** ** Sample data

    Instances over the model of [dnd35e.numbers], on which the properties
    below are exercised. *)
Module sample.
Section defs.
#[local] Existing Instance spec_numbers.

Definition evasion : Ability.t :=
  store (store new_object "_name" (VStr "Evasion"))
        "_description" (VStr "No damage on a successful Reflex save").

Definition improved_evasion : Ability.t :=
  store (store new_object "_name" (VStr "Improved Evasion"))
        "_description" (VStr "Half damage on a failed Reflex save").

(** A reading of the level keywords, for [num.ordinal]. *)
Definition ordinal (keyword : string) : Z :=
  if decide (keyword = "second") then 2
  else if decide (keyword = "tenth") then 10
  else 1.

Definition evasion_feature : ClassFeature.t :=
  ClassFeature.init ordinal "Evasion" None
    [("second", evasion); ("tenth", improved_evasion)].

Definition fighter : Class.t :=
  {| Class.alignment_restriction := None;
     Class.hit_die := {| sides := 10 |};
     Class.class_skills := ["Climb"; "Craft"; "Handle Animal"];
     Class.skill_points_per_level := 2;
     Class.base_attack_bonus := Progression.init "base_attack_bonus" [1; 2; 3];
     Class.fort_save := Progression.init "fort_save" [2; 3; 3];
     Class.ref_save := Progression.init "ref_save" [0; 0; 1];
     Class.will_save := Progression.init "will_save" [0; 0; 1];
     Class.features := [] |}.

Definition medium : Size.t := Size.init "Medium" 0.

Definition poison_resistance : Modifier := Modifier_new 2 {| mt_name := "racial" |}.

Definition hardy : Modifier := Modifier_new 1 {| mt_name := "racial" |}.

(** The instance that a constructor call returns, when it raises
    nothing. *)
Definition built (r : result object) : object :=
  match r with
  | Ok self => self
  | Raise _ => new_object
  end.

Definition human : Race.t :=
  built (Race.init "Human" medium 30 ["Common"] None None []).

Definition dwarf : Race.t :=
  built (Race.init "Dwarf" medium 20 ["Common"; "Dwarven"]
           (Some ["Giant"; "Gnome"]) (Some "Fighter")
           [("saving_throws", VModifier poison_resistance);
            ("fortitude", VModifier hardy)]).

End defs.
End sample.

(** ** Properties *)

(** *** The model of [dnd35e.numbers] meets what is assumed of it *)

Section spec_model.
#[local] Existing Instance spec_numbers.

Lemma spec_int_new (v : Z) (ty : ModifierType) :
  Modifier_int (Modifier_new v ty) = v.
Proof. reflexivity. Qed.

Lemma spec_type_new (v : Z) (ty : ModifierType) :
  Modifier_type (Modifier_new v ty) = Some ty.
Proof. reflexivity. Qed.

Lemma spec_int_neg (m : Modifier) :
  Modifier_int (Modifier_neg m) = - Modifier_int m.
Proof. reflexivity. Qed.

Lemma spec_int_rmul (k : Z) (m : Modifier) :
  Modifier_int (Modifier_rmul k m) = k * Modifier_int m.
Proof. reflexivity. Qed.

Lemma spec_int_add (a b : Modifier) :
  Modifier_int (Modifier_add a b) = Modifier_int a + Modifier_int b.
Proof. reflexivity. Qed.

Lemma spec_int_zero : Modifier_int Modifier_zero = 0.
Proof. reflexivity. Qed.

End spec_model.

(** *** Size and AbilityScore *)

Section numeric_properties.
Context {num : Numbers}.

(** What the description says of [dnd35e.numbers.Modifier]: the integer of
    a Modifier built from a value is that value and its type is the type it
    was given; negation negates the integer; an integer factor scales it. *)
Hypothesis int_new : forall v ty, Modifier_int (Modifier_new v ty) = v.
Hypothesis type_new : forall v ty, Modifier_type (Modifier_new v ty) = Some ty.
Hypothesis int_neg : forall m, Modifier_int (Modifier_neg m) = - Modifier_int m.
Hypothesis int_rmul :
  forall k m, Modifier_int (Modifier_rmul k m) = k * Modifier_int m.

(** C1: for a core-model Size built from a name and a scale [s], the attack
    and armor-class modifiers have the integer value [-s], the grapple
    modifier [4 * s] and the hide modifier [-4 * s]; for [Size("Large", -1)]
    these are +1, +1, -4 and +4. *)
Theorem Size_modifiers_linear (n : string) (s : Z) :
  (Modifier_int (Size.attack (Size.init n s)) = - s /\
   Modifier_int (Size.armor_class (Size.init n s)) = - s /\
   Modifier_int (Size.grapple (Size.init n s)) = 4 * s /\
   Modifier_int (Size.hide (Size.init n s)) = -4 * s) /\
  (Modifier_int (Size.attack (Size.init "Large" (-1))) = 1 /\
   Modifier_int (Size.armor_class (Size.init "Large" (-1))) = 1 /\
   Modifier_int (Size.grapple (Size.init "Large" (-1))) = -4 /\
   Modifier_int (Size.hide (Size.init "Large" (-1))) = 4).
Proof.
  unfold Size.attack, Size.armor_class, Size.grapple, Size.hide, Size.init.
  cbn [Size._modifier].
  rewrite !int_neg, !int_rmul, !int_new.
  repeat split; lia.
Qed.

(** C2: the modifier of [AbilityScore(score)] has ModifierType "ability"
    and its integer value is the floor of [(score - 10) / 2], the greatest
    integer [q] with [2 * q <= score - 10]; scores 10, 18 and 7 give 0, 4
    and -2; the score is 10 when none is supplied. *)
Theorem AbilityScore_modifier_floor (score : Z) :
  (Modifier_type (AbilityScore.modifier (AbilityScore.init (Some score)))
   = Some {| mt_name := "ability" |} /\
   2 * Modifier_int (AbilityScore.modifier (AbilityScore.init (Some score)))
     <= score - 10
     < 2 * Modifier_int (AbilityScore.modifier (AbilityScore.init (Some score))) + 2) /\
  (Modifier_int (AbilityScore.modifier (AbilityScore.init (Some 10))) = 0 /\
   Modifier_int (AbilityScore.modifier (AbilityScore.init (Some 18))) = 4 /\
   Modifier_int (AbilityScore.modifier (AbilityScore.init (Some 7))) = -2) /\
  AbilityScore.score (AbilityScore.init None) = 10.
Proof.
  unfold AbilityScore.modifier, AbilityScore.init.
  cbn [AbilityScore.score].
  rewrite type_new, !int_new.
  split; [split; [reflexivity|]|].
  - pose proof (Z.mul_div_le (score - 10) 2 ltac:(lia)).
    pose proof (Z.mul_succ_div_gt (score - 10) 2 ltac:(lia)).
    lia.
  - repeat split; reflexivity.
Qed.

End numeric_properties.

Lemma Size_modifiers_linear_witness :
  Modifier_int (Size.grapple (num := spec_numbers) (Size.init "Huge" (-2))) = -8.
Proof.
  pose proof (@Size_modifiers_linear spec_numbers
                spec_int_new spec_int_neg spec_int_rmul "Huge" (-2)) as [[_ [_ [Hg _]]] _].
  exact Hg.
Defined.

Lemma AbilityScore_modifier_floor_witness :
  Modifier_type
    (AbilityScore.modifier (num := spec_numbers) (AbilityScore.init (Some 13)))
  = Some {| mt_name := "ability" |}.
Proof.
  pose proof (@AbilityScore_modifier_floor spec_numbers
                spec_int_new spec_type_new 13) as [[Ht _] _].
  exact Ht.
Defined.

(** *** ClassFeature *)

Lemma foldl_max_ge (l : list Z) (x : Z) : x <= foldl Z.max x l.
Proof.
  revert x. induction l as [|y l IH]; intros x; cbn; [lia|].
  specialize (IH (Z.max x y)). lia.
Qed.

Lemma foldl_max_elem (l : list Z) (x : Z) : foldl Z.max x l ∈ x :: l.
Proof.
  revert x. induction l as [|y l IH]; intros x; cbn; [set_solver|].
  specialize (IH (Z.max x y)).
  apply elem_of_cons in IH as [->|IH]; [|set_solver].
  destruct (Z.max_spec x y) as [[_ ->]|[_ ->]]; set_solver.
Qed.

Lemma foldl_max_upper (l : list Z) (x y : Z) : y ∈ l -> y <= foldl Z.max x l.
Proof.
  revert x. induction l as [|z l IH]; intros x Hy; cbn; [set_solver|].
  apply elem_of_cons in Hy as [->|Hy]; [|by apply IH].
  pose proof (foldl_max_ge l (Z.max x z)). lia.
Qed.

(** [max] of a non-empty list is one of its elements and bounds them all. *)
Lemma py_max_Ok (l : list Z) (x : Z) :
  x ∈ l -> exists m, py_max l = Ok m /\ m ∈ l /\ forall y, y ∈ l -> y <= m.
Proof.
  destruct l as [|z l]; [set_solver|]. intros _.
  exists (foldl Z.max z l). split; [reflexivity|]. split.
  - apply foldl_max_elem.
  - intros y [->|Hy]%elem_of_cons.
    + apply foldl_max_ge.
    + by apply foldl_max_upper.
Qed.

Section class_feature_properties.
Context {num : Numbers}.
Implicit Types (self : ClassFeature.t) (level lvl : Z) (a : Ability.t).

(** A level is declared when it is a key of the progression. *)
Lemma elem_of_candidates self level lvl :
  lvl ∈ ClassFeature.candidates self level
  <-> is_Some (ClassFeature.progression self !! lvl) /\ lvl <= level.
Proof.
  unfold ClassFeature.candidates.
  rewrite list_elem_of_filter, list_elem_of_fmap. split.
  - intros [Hle [[k a] [-> Hin%elem_of_map_to_list]]]. eauto.
  - intros [[a Ha] Hle]. split; [done|].
    exists (lvl, a). split; [done|]. by apply elem_of_map_to_list.
Qed.

Lemma getitem_greatest self level lvl a :
  ClassFeature.progression self !! lvl = Some a ->
  lvl <= level ->
  (forall l', is_Some (ClassFeature.progression self !! l') ->
              l' <= level -> l' <= lvl) ->
  ClassFeature.getitem self level = Ok a.
Proof.
  intros Ha Hle Hmax.
  assert (lvl ∈ ClassFeature.candidates self level) as Hin
    by (apply elem_of_candidates; eauto).
  destruct (py_max_Ok _ _ Hin) as (m & Hm & Hmin & Hub).
  assert (m = lvl) as ->.
  { apply elem_of_candidates in Hmin as [Hs Hml].
    specialize (Hmax m Hs Hml). specialize (Hub lvl Hin). lia. }
  unfold ClassFeature.getitem. rewrite Hm. cbn.
  unfold dict_getitem. by rewrite Ha.
Qed.

Lemma getitem_some_greatest self level lvl :
  is_Some (ClassFeature.progression self !! lvl) ->
  lvl <= level ->
  exists l a,
    ClassFeature.progression self !! l = Some a /\ l <= level /\
    (forall l', is_Some (ClassFeature.progression self !! l') ->
                l' <= level -> l' <= l) /\
    ClassFeature.getitem self level = Ok a.
Proof.
  intros Hs Hle.
  assert (lvl ∈ ClassFeature.candidates self level) as Hin
    by (apply elem_of_candidates; eauto).
  destruct (py_max_Ok _ _ Hin) as (m & Hm & Hmin & Hub).
  pose proof Hmin as [[a Ha] Hml]%elem_of_candidates.
  assert (forall l', is_Some (ClassFeature.progression self !! l') ->
                     l' <= level -> l' <= m) as Hgreatest.
  { intros l' Hs' Hle'. apply Hub, elem_of_candidates. eauto. }
  exists m, a. repeat split; [done..|].
  by apply getitem_greatest with m.
Qed.

Lemma getitem_below self level :
  (forall l', is_Some (ClassFeature.progression self !! l') -> level < l') ->
  ClassFeature.getitem self level = Raise ValueError.
Proof.
  intros Hlow. unfold ClassFeature.getitem.
  destruct (ClassFeature.candidates self level) as [|x l] eqn:Hc; [done|].
  assert (x ∈ ClassFeature.candidates self level) as Hin
    by (rewrite Hc; set_solver).
  apply elem_of_candidates in Hin as [Hs Hle].
  specialize (Hlow x Hs). lia.
Qed.

(** In a progression that declares levels 1 and 5 only, a declared level is
    1 or 5. *)
Lemma declared_1_5 (a1 a5 : Ability.t) (l : Z) :
  is_Some ((<[5 := a5]> (<[1 := a1]> (∅ : gmap Z Ability.t))) !! l) ->
  l = 1 \/ l = 5.
Proof.
  intros [a Ha].
  destruct (decide (l = 5)) as [->|]; [by right|].
  destruct (decide (l = 1)) as [->|]; [by left|].
  by rewrite !lookup_insert_ne, lookup_empty in Ha.
Qed.

(** C3: when the queried level is at or above the lowest declared level,
    indexing a ClassFeature returns the Ability registered at the greatest
    declared level that does not exceed the query; below the lowest declared
    level it fails (with the [ValueError] of [max] on an empty sequence).
    With declarations at levels 1 and 5, level 3 gives the level-1 Ability,
    levels 5 and 6 the level-5 Ability, and level 0 fails. *)
Theorem ClassFeature_getitem_by_level self level (lowest : Z) :
  is_Some (ClassFeature.progression self !! lowest) ->
  (forall l', is_Some (ClassFeature.progression self !! l') -> lowest <= l') ->
  (lowest <= level ->
   exists l a,
     ClassFeature.progression self !! l = Some a /\ l <= level /\
     (forall l', is_Some (ClassFeature.progression self !! l') ->
                 l' <= level -> l' <= l) /\
     ClassFeature.getitem self level = Ok a) /\
  (level < lowest -> ClassFeature.getitem self level = Raise ValueError) /\
  (forall (ordinal : string -> Z) (name k1 k5 : string) (a1 a5 : Ability.t),
     ordinal k1 = 1 -> ordinal k5 = 5 ->
     let feature := ClassFeature.init ordinal name None [(k1, a1); (k5, a5)] in
     ClassFeature.getitem feature 3 = Ok a1 /\
     ClassFeature.getitem feature 5 = Ok a5 /\
     ClassFeature.getitem feature 6 = Ok a5 /\
     ClassFeature.getitem feature 0 = Raise ValueError).
Proof.
  intros Hdeclared Hlowest. split; [|split].
  - intros Hle. by apply getitem_some_greatest with lowest.
  - intros Hlt. apply getitem_below. intros l' Hs.
    specialize (Hlowest l' Hs). lia.
  - intros ordinal name k1 k5 a1 a5 H1 H5 feature.
    assert (ClassFeature.progression feature
            = <[5 := a5]> (<[1 := a1]> ∅)) as Hp
      by (subst feature; cbn; by rewrite H1, H5).
    assert (ClassFeature.progression feature !! 1 = Some a1) as Hl1
      by (rewrite Hp; by rewrite lookup_insert_ne, lookup_insert_eq).
    assert (ClassFeature.progression feature !! 5 = Some a5) as Hl5
      by (rewrite Hp; by rewrite lookup_insert_eq).
    assert (forall l, is_Some (ClassFeature.progression feature !! l) ->
                      l = 1 \/ l = 5) as Hkeys
      by (intros l; rewrite Hp; apply declared_1_5).
    repeat split.
    + apply getitem_greatest with 1; [done|lia|].
      intros l' Hs Hle. destruct (Hkeys l' Hs); lia.
    + apply getitem_greatest with 5; [done|lia|].
      intros l' Hs Hle. destruct (Hkeys l' Hs); lia.
    + apply getitem_greatest with 5; [done|lia|].
      intros l' Hs Hle. destruct (Hkeys l' Hs); lia.
    + apply getitem_below. intros l' Hs. destruct (Hkeys l' Hs); lia.
Qed.

End class_feature_properties.

Lemma ClassFeature_getitem_by_level_witness :
  exists l a,
    ClassFeature.progression sample.evasion_feature !! l = Some a /\ l <= 7 /\
    (forall l', is_Some (ClassFeature.progression sample.evasion_feature !! l') ->
                l' <= 7 -> l' <= l) /\
    ClassFeature.getitem sample.evasion_feature 7 = Ok a.
Proof.
  refine (proj1 (ClassFeature_getitem_by_level
                   sample.evasion_feature 7 2 _ _) _).
  - exists sample.evasion. reflexivity.
  - intros l' [a Ha].
    destruct (decide (l' = 10)) as [->|]; [lia|].
    destruct (decide (l' = 2)) as [->|]; [lia|].
    cbn in Ha. by rewrite !lookup_insert_ne, lookup_empty in Ha.
  - lia.
Defined.

(** *** Race *)

Section race_properties.
Context {num : Numbers}.
Implicit Types (self : Race.t) (kw : kwargs) (v : Value).

(** What the description says of adding Modifiers: integers add, and the
    Modifier built with no arguments is the zero bonus. *)
Hypothesis int_add :
  forall a b, Modifier_int (Modifier_add a b) = Modifier_int a + Modifier_int b.
Hypothesis int_zero : Modifier_int Modifier_zero = 0.

Lemma kwargs_get_None kw (k : string) : k ∉ kw.*1 -> kwargs_get kw k = None.
Proof.
  induction kw as [|[k' v] kw IH]; [done|]. cbn.
  intros [Hne Hk]%not_elem_of_cons.
  case_decide as Heq; [congruence|]. by apply IH.
Qed.

Lemma object_setattr_Ok (self : object) (k : string) v :
  k <> "__class__" -> k <> "__dict__" -> k <> "__weakref__" ->
  object_setattr self k v = Ok (store self k v).
Proof. intros. unfold object_setattr. by repeat case_decide. Qed.

Lemma object_setattr_inv (self self' : object) (k : string) v :
  object_setattr self k v = Ok self' -> self' = store self k v.
Proof. unfold object_setattr. repeat case_decide; congruence. Qed.

(** The dictionary key that an assignment which raises nothing writes. *)
Lemma setattr_inv self self' (k : string) v :
  Race.setattr self k v = Ok self' ->
  exists slot : string,
    self' = store self slot v /\
    ((k = "fortitude" /\ slot = "_fortitude") \/
     (k = "reflex" /\ slot = "_reflex") \/
     (k = "will" /\ slot = "_will") \/
     (k <> "fortitude" /\ k <> "reflex" /\ k <> "will" /\ slot = k)).
Proof.
  unfold Race.setattr. repeat case_decide.
  - intros [= <-]. exists "_fortitude". tauto.
  - intros [= <-]. exists "_reflex". tauto.
  - intros [= <-]. exists "_will". tauto.
  - intros ->%object_setattr_inv. exists k. tauto.
Qed.

Lemma setattr_Ok self (k : string) v :
  k <> "__class__" -> k <> "__dict__" -> k <> "__weakref__" ->
  exists self', Race.setattr self k v = Ok self'.
Proof.
  intros. unfold Race.setattr. repeat case_decide; eauto.
  rewrite object_setattr_Ok by done. eauto.
Qed.

Lemma features_loop_Raise kw (e : exn) :
  foldl (fun acc kv => self ← acc; Race.setattr self kv.1 kv.2) (Raise e) kw
  = Raise e.
Proof. induction kw as [|[k v] kw IH]; [done|]. apply IH. Qed.

(** The loop over the features raises nothing when no keyword is one of
    the three names that cannot be assigned. *)
Lemma features_loop_Ok kw self :
  "__class__" ∉ kw.*1 -> "__dict__" ∉ kw.*1 -> "__weakref__" ∉ kw.*1 ->
  exists self',
    foldl (fun acc kv => self ← acc; Race.setattr self kv.1 kv.2) (Ok self) kw
    = Ok self'.
Proof.
  revert self. induction kw as [|[k v] kw IH]; intros self; [eauto|].
  cbn [fmap list_fmap fst].
  intros [Hc Hcs]%not_elem_of_cons [Hd Hds]%not_elem_of_cons
         [Hw Hws]%not_elem_of_cons.
  destruct (setattr_Ok self k v) as [self1 Hset]; [done..|].
  cbn [foldl mbind result_bind fst snd]. rewrite Hset. by apply IH.
Qed.

(** The attribute [a] after the loop over the features, when [a] is written
    for the keyword [k0] and for no other keyword that is passed. *)
Lemma features_loop_lookup kw (a k0 : string) :
  NoDup kw.*1 ->
  (forall self v self1,
     Race.setattr self k0 v = Ok self1 -> dict self1 !! a = Some v) ->
  (forall k, k ∈ kw.*1 -> k <> k0 ->
     forall self v self1,
       Race.setattr self k v = Ok self1 -> dict self1 !! a = dict self !! a) ->
  forall self self',
    foldl (fun acc kv => self ← acc; Race.setattr self kv.1 kv.2) (Ok self) kw
    = Ok self' ->
    dict self' !! a
    = match kwargs_get kw k0 with
      | Some v => Some v
      | None => dict self !! a
      end.
Proof.
  intros Hnd Hw. induction kw as [|[k v] kw IH]; intros Ho self self' Hloop.
  { cbn in Hloop. by injection Hloop as <-. }
  cbn in Hnd. apply NoDup_cons in Hnd as [Hk Hnd].
  cbn [foldl mbind result_bind fst snd] in Hloop.
  destruct (Race.setattr self k v) as [self1|e] eqn:Hset;
    [|by rewrite features_loop_Raise in Hloop].
  cbn [kwargs_get].
  rewrite (IH Hnd) with (self := self1) (self' := self');
    [|intros k' Hk'; apply Ho; cbn; apply elem_of_cons; by right|done].
  case_decide as Heq.
  - subst k. rewrite kwargs_get_None by done. by apply Hw with self.
  - destruct (kwargs_get kw k0); [done|].
    apply Ho with k v; [apply elem_of_cons; by left|done..].
Qed.

Lemma setattr_keeps self self1 (k a : string) v :
  Race.setattr self k v = Ok self1 ->
  a <> k -> a <> "_fortitude" -> a <> "_reflex" -> a <> "_will" ->
  dict self1 !! a = dict self !! a.
Proof.
  intros (slot & -> & Hslot)%setattr_inv Hk Hf Hr Hw. cbn [dict store].
  apply lookup_insert_ne.
  destruct Hslot as [[_ ->]|[[_ ->]|[[_ ->]|(_ & _ & _ & ->)]]]; congruence.
Qed.

(** A private save attribute is written for its property and for its own
    name only. *)
Lemma setattr_keeps_private self self1 (k a p : string) v :
  (p = "fortitude" /\ a = "_fortitude") \/
  (p = "reflex" /\ a = "_reflex") \/
  (p = "will" /\ a = "_will") ->
  Race.setattr self k v = Ok self1 ->
  k <> p -> k <> a ->
  dict self1 !! a = dict self !! a.
Proof.
  intros Hpa (slot & -> & Hslot)%setattr_inv Hp Ha. cbn [dict store].
  apply lookup_insert_ne.
  destruct Hpa as [[-> ->]|[[-> ->]|[-> ->]]];
    destruct Hslot as [[-> ->]|[[-> ->]|[[-> ->]|(_ & _ & _ & ->)]]];
    congruence.
Qed.

Lemma setattr_writes_private self self1 (a p : string) v :
  (p = "fortitude" /\ a = "_fortitude") \/
  (p = "reflex" /\ a = "_reflex") \/
  (p = "will" /\ a = "_will") ->
  Race.setattr self p v = Ok self1 ->
  dict self1 !! a = Some v.
Proof.
  intros Hpa (slot & -> & Hslot)%setattr_inv. cbn [dict store].
  destruct Hpa as [[-> ->]|[[-> ->]|[-> ->]]];
    destruct Hslot as [[? ->]|[[? ->]|[[? ->]|(? & ? & ? & ->)]]];
    try done; apply lookup_insert_eq.
Qed.

Lemma setattr_writes self self1 (k : string) v :
  k <> "fortitude" -> k <> "reflex" -> k <> "will" ->
  Race.setattr self k v = Ok self1 ->
  dict self1 !! k = Some v.
Proof.
  intros Hf Hr Hw (slot & -> & Hslot)%setattr_inv. cbn [dict store].
  destruct Hslot as [[? ->]|[[? ->]|[[? ->]|(_ & _ & _ & ->)]]];
    try done; apply lookup_insert_eq.
Qed.

(** The attributes that the saves read, after [__init__]. *)
Lemma init_operands name size speed languages bl fc kw self (p a : string) :
  (p = "fortitude" /\ a = "_fortitude") \/
  (p = "reflex" /\ a = "_reflex") \/
  (p = "will" /\ a = "_will") ->
  NoDup kw.*1 -> a ∉ kw.*1 -> "_save_bonus" ∉ kw.*1 ->
  Race.init name size speed languages bl fc kw = Ok self ->
  dict self !! "_save_bonus" = None /\
  dict self !! "saving_throws" = kwargs_get kw "saving_throws" /\
  dict self !! a
  = Some (default (VModifier Modifier_zero) (kwargs_get kw p)).
Proof.
  intros Hpa Hnd Ha Hsb Hinit. unfold Race.init in Hinit. split; [|split].
  - rewrite (fun Hw Ho =>
               features_loop_lookup kw "_save_bonus" "_save_bonus" Hnd Hw Ho _ _ Hinit).
    + rewrite kwargs_get_None by done. by destruct bl, fc.
    + intros s v s1. by apply setattr_writes.
    + intros k _ Hne s v s1 Hset. by apply setattr_keeps with k v.
  - rewrite (fun Hw Ho =>
               features_loop_lookup kw "saving_throws" "saving_throws" Hnd Hw Ho _ _ Hinit).
    + destruct (kwargs_get kw "saving_throws"); [done|]. by destruct bl, fc.
    + intros s v s1. by apply setattr_writes.
    + intros k _ Hne s v s1 Hset. by apply setattr_keeps with k v.
  - rewrite (fun Hw Ho =>
               features_loop_lookup kw a p Hnd Hw Ho _ _ Hinit).
    + destruct (kwargs_get kw p); [done|].
      destruct Hpa as [[-> ->]|[[-> ->]|[-> ->]]]; by destruct bl, fc.
    + intros s v s1. by apply setattr_writes_private.
    + intros k Hk Hne s v s1 Hset.
      apply setattr_keeps_private with k p v; [done..|]. by intros ->.
Qed.

Lemma init_save_bonus name size speed languages bl fc kw self (p a : string) :
  (p = "fortitude" /\ a = "_fortitude") \/
  (p = "reflex" /\ a = "_reflex") \/
  (p = "will" /\ a = "_will") ->
  NoDup kw.*1 -> a ∉ kw.*1 -> "_save_bonus" ∉ kw.*1 ->
  Race.init name size speed languages bl fc kw = Ok self ->
  Race.call_save_bonus self a
  = py_add (default (VModifier Modifier_zero) (kwargs_get kw "saving_throws"))
           (default (VModifier Modifier_zero) (kwargs_get kw p)).
Proof.
  intros Hpa Hnd Ha Hsb Hinit.
  destruct (init_operands name size speed languages bl fc kw self p a
              Hpa Hnd Ha Hsb Hinit) as (Hm & Hg & Hs).
  unfold Race.call_save_bonus, Race._save_bonus, load. rewrite Hm, Hg, Hs.
  by destruct (kwargs_get kw "saving_throws").
Qed.


End race_properties.


(** *** Progression and ClassLevel *)

Lemma list_getitem_index {A : Type} (l : list A) (i : Z) :
  0 <= i ->
  list_getitem l i
  = match l !! Z.to_nat i with
    | Some x => Ok x
    | None => Raise IndexError
    end.
Proof.
  intros Hi. unfold list_getitem.
  destruct (Z.ltb_spec i 0) as [|_]; [lia|].
  destruct (Z.leb_spec 0 i) as [_|]; [|lia]. cbn [andb].
  destruct (Z.ltb_spec i (Z.of_nat (length l))) as [Hlt|Hge]; [done|].
  rewrite (proj2 (lookup_ge_None l (Z.to_nat i))); [done|lia].
Qed.

Section class_level_properties.
Context {num : Numbers}.

(** C5, amended: the four bonuses of a ClassLevel holding class [c] at a
    level [L >= 0] are the Modifiers at position [L], counted from zero, of
    the corresponding Progressions of [c], and the lookup raises
    [IndexError] when [L] is the length of the Progression or more; a
    Progression built from a sequence of values holds at position [i] the
    Modifier made of the value at position [i], so that its first value is
    at position 0. *)
Theorem ClassLevel_bonuses_by_index (c : Class.t) (L : Z) :
  0 <= L ->
  (ClassLevel.base_attack_bonus (ClassLevel.init c L)
   = Progression_at_index (Class.base_attack_bonus c) (Z.to_nat L) /\
   ClassLevel.fort_save (ClassLevel.init c L)
   = Progression_at_index (Class.fort_save c) (Z.to_nat L) /\
   ClassLevel.ref_save (ClassLevel.init c L)
   = Progression_at_index (Class.ref_save c) (Z.to_nat L) /\
   ClassLevel.will_save (ClassLevel.init c L)
   = Progression_at_index (Class.will_save c) (Z.to_nat L)) /\
  (forall (modifier_name : string) (values : list Z) (i : nat),
     Progression._modifiers (Progression.init modifier_name values) !! i
     = (fun v => Modifier_new v {| mt_name := modifier_name |}) <$> values !! i) /\
  (forall p : Progression.t,
     Progression.len p <= L ->
     Progression_at_index p (Z.to_nat L) = Raise IndexError).
Proof.
  intros HL. split; [|split].
  - unfold ClassLevel.base_attack_bonus, ClassLevel.fort_save,
      ClassLevel.ref_save, ClassLevel.will_save, ClassLevel.init,
      Progression.getitem, Progression_at_index.
    cbn [ClassLevel.class_ ClassLevel.level].
    by rewrite !list_getitem_index.
  - intros modifier_name values i. unfold Progression.init.
    cbn [Progression._modifiers]. apply list_lookup_fmap.
  - intros p Hlen. unfold Progression_at_index, Progression.len in *.
    rewrite (proj2 (lookup_ge_None _ (Z.to_nat L))); [done|lia].
Qed.

End class_level_properties.

Lemma ClassLevel_bonuses_by_index_witness :
  ClassLevel.base_attack_bonus (ClassLevel.init sample.fighter 2)
  = Progression_at_index (Class.base_attack_bonus sample.fighter) 2.
Proof.
  refine (proj1 (proj1 (@ClassLevel_bonuses_by_index spec_numbers
                          sample.fighter 2 _))).
  lia.
Defined.

(** C5, as stated, fails: the fighter's base attack bonus Progression is
    built from 1, 2, 3, so the description gives level 1 the Modifier of
    value 1, while a ClassLevel at level 1 has the Modifier of value 2. *)
Lemma ClassLevel_level_1_not_first_value :
  ~ (exists m,
       Progression_at_level (Class.base_attack_bonus sample.fighter) 1 = Some m /\
       ClassLevel.base_attack_bonus (ClassLevel.init sample.fighter 1) = Ok m).
Proof.
  intros (m & Hspec & Hcode).
  vm_compute in Hspec, Hcode. congruence.
Qed.

(** *** Character *)

Lemma Counter_init_id `{Countable K} (mapping : gmap K Z) :
  Counter.init mapping = mapping.
Proof.
  unfold Counter.init, Counter.update.
  case_decide; [|done]. apply (right_id_L ∅ (∪)).
Qed.

Lemma summed_levels_two (c1 c2 : positive) (n1 n2 : Z) :
  c1 <> c2 -> summed_levels (<[c1 := n1]> {[c2 := n2]}) = n1 + n2.
Proof.
  intros Hne. unfold summed_levels.
  rewrite map_fold_insert_L.
  - rewrite map_fold_singleton. lia.
  - intros. lia.
  - by apply lookup_singleton_ne.
Qed.

Section character_properties.
Context {num : Numbers}.
Implicit Types (race : Race.t) (classes : gmap positive Z) (feats : list Feat.t).

Lemma level_size race classes feats :
  Character.level (Character.init race classes feats) = Z.of_nat (size classes).
Proof.
  unfold Character.level, Character.init. cbn [Character.classes].
  by rewrite Counter_init_id.
Qed.

(** C6: the level of a Character is the number of distinct classes it
    holds, not the sum of the levels held: with 3 levels of one class and 2
    of another the level is 2, while the levels sum to 5. *)
Theorem Character_level_counts_classes race classes feats :
  Character.level (Character.init race classes feats)
  = Z.of_nat (size (dom classes)) /\
  (forall fighter wizard : positive,
     fighter <> wizard ->
     Character.level
       (Character.init race (<[fighter := 3]> {[wizard := 2]}) feats) = 2 /\
     summed_levels (<[fighter := 3]> {[wizard := 2]}) = 5).
Proof.
  split.
  - by rewrite level_size, size_dom.
  - intros fighter wizard Hne. split.
    + rewrite level_size, map_size_insert_None, map_size_singleton; [done|].
      by apply lookup_singleton_ne.
    + by rewrite summed_levels_two.
Qed.

(** C10: a class entered with 0 levels held still counts toward the level:
    the level is the number of keys of the stored Counter, one more than
    without that entry, and a Character whose only entry is a class with 0
    levels has level 1. *)
Theorem Character_level_counts_zero_entries race classes feats (c : positive) :
  classes !! c = Some 0 ->
  Character.level (Character.init race classes feats)
  = Z.of_nat (size (Character.classes (Character.init race classes feats))) /\
  Character.classes (Character.init race classes feats) !! c = Some 0 /\
  Character.level (Character.init race classes feats)
  = 1 + Character.level (Character.init race (delete c classes) feats) /\
  Character.level (Character.init race {[c := 0]} feats) = 1.
Proof.
  intros Hc. split; [done|]. split; [|split].
  - unfold Character.init. cbn [Character.classes]. by rewrite Counter_init_id.
  - rewrite !level_size.
    rewrite <-(insert_delete_id classes c 0) at 1 by done.
    rewrite map_size_insert_None by apply lookup_delete_eq. lia.
  - by rewrite level_size, map_size_singleton.
Qed.

End character_properties.

Lemma Character_level_counts_classes_witness :
  Character.level
    (Character.init sample.human (<[1%positive := 3]> {[2%positive := 2]}) []) = 2.
Proof.
  refine (proj1 (proj2 (@Character_level_counts_classes spec_numbers
                          sample.human ∅ []) 1%positive 2%positive _)).
  discriminate.
Defined.

Lemma Character_level_counts_zero_entries_witness :
  Character.level
    (Character.init sample.dwarf (<[1%positive := 0]> {[2%positive := 4]}) [])
  = 1 + Character.level
          (Character.init sample.dwarf
             (delete 1%positive (<[1%positive := 0]> {[2%positive := 4]})) []).
Proof.
  refine (proj1 (proj2 (proj2 (@Character_level_counts_zero_entries spec_numbers
            sample.dwarf (<[1%positive := 0]> {[2%positive := 4]}) []
            1%positive _)))).
  reflexivity.
Defined.

(** *** Ability *)

Section ability_properties.
Context {num : Numbers}.

(** C7, on the code: [__init__] stores the default type "Natural" whenever
    an AbilityType is supplied, whatever it is, and the type of empty name
    when none is supplied; so [Ability("Rage", AbilityType("Extraordinary",
    "Ex"), "")] is not typed by the type it was given. *)
Theorem Ability_type_argument_dropped
    (name : string) (supplied : AbilityType.t) (description : option string) :
  (self ← Ability.init name (Some supplied) description [];
   Ability.ability_type self)
  = Ok (VAbilityType (AbilityType.init "Natural")) /\
  (self ← Ability.init name None description [];
   Ability.ability_type self)
  = Ok (VAbilityType (AbilityType.init "")) /\
  (self ← Ability.init "Rage"
            (Some {| AbilityType.name := "Extraordinary";
                     AbilityType.abbreviation := Some "Ex" |})
            (Some "") [];
   Ability.ability_type self)
  <> Ok (VAbilityType {| AbilityType.name := "Extraordinary";
                         AbilityType.abbreviation := Some "Ex" |}).
Proof.
  split; [|split].
  - reflexivity.
  - reflexivity.
  - intros Heq. vm_compute in Heq. discriminate Heq.
Qed.

End ability_properties.

(** *** The legacy catalog *)

(** C8: the catalog defines the sizes fine, diminutive, tiny, small,
    medium, large, huge, gargantuan and colossal, in this order, with
    magnitudes 8, 4, 2, 1, 0, -1, -2, -4 and -8; fine has magnitude 8,
    colossal -8, and the magnitudes decrease along the sequence. *)
Theorem legacy_sizes_sequence :
  dnd35.srd.sizes.*1
  = ["fine"; "diminutive"; "tiny"; "small"; "medium"; "large"; "huge";
     "gargantuan"; "colossal"] /\
  dnd35.magnitude <$> dnd35.srd.sizes.*2 = [8; 4; 2; 1; 0; -1; -2; -4; -8] /\
  dnd35.magnitude dnd35.srd.fine = 8 /\
  dnd35.magnitude dnd35.srd.colossal = -8 /\
  decreasing (dnd35.magnitude <$> dnd35.srd.sizes.*2).
Proof.
  repeat split; try reflexivity; cbn; lia.
Qed.

(** C9: the catalog's dwarf has size medium, speed 20, constitution +2 and
    charisma -2, the specials Darkvision, Stonecunning, Weapon Familiarity
    and Stability, a saving_throws Modifier with the two +2 bonuses against
    poison and against spells, a +1 attack bonus against orcs and
    goblinoids, a +4 armor class bonus against giants, +2 appraise and craft
    Modifiers for stone or metal, the languages Common and Dwarven, the
    bonus languages Giant, Gnome, Goblin, Orc, Terran and Undercommon, and
    Fighter as favored class; it has no other feature. *)
Theorem legacy_dwarf_literals :
  let dwarf := dnd35.srd.dwarf in
  let feature := dnd35.feature (dnd35.features dwarf) in
  let note (s : string) := dnd35.FModifier
    {| dnd35.descriptions := [s]; dnd35.subbonuses := [] |} in
  dnd35.name dwarf = "Dwarf" /\
  dnd35.size dwarf = dnd35.srd.medium /\
  dnd35.magnitude (dnd35.size dwarf) = 0 /\
  dnd35.speed dwarf = 20 /\
  feature "constitution" = Some (dnd35.FInt 2) /\
  feature "charisma" = Some (dnd35.FInt (-2)) /\
  feature "darkvision" = Some (dnd35.FSpecial dnd35.srd.darkvision) /\
  dnd35.special_name dnd35.srd.darkvision = "Darkvision" /\
  feature "stonecunning" = Some (dnd35.FSpecial dnd35.srd.stonecunning) /\
  dnd35.special_name dnd35.srd.stonecunning = "Stonecunning" /\
  feature "weapon_familiarity"
  = Some (dnd35.FSpecial {| dnd35.special_name := "Weapon Familiarity";
                            dnd35.named_modifiers := [] |}) /\
  feature "stability" = Some (dnd35.FSpecial dnd35.srd.stability) /\
  dnd35.special_name dnd35.srd.stability = "Stability" /\
  feature "saving_throws"
  = Some (dnd35.FModifier
      {| dnd35.descriptions :=
           [ "+2 racial bonus on saving throws against poison.";
             "+2 racial bonus on saving throws against spells and spell-like effects." ];
         dnd35.subbonuses := [] |}) /\
  feature "attack_bonus"
  = Some (note "+1 racial bonus on attack rolls against orcs and goblinoids.") /\
  feature "armor_class"
  = Some (note "+4 dodge bonus to Armor Class against monsters of the giant type.") /\
  feature "appraise"
  = Some (note "+2 racial bonus on Appraise checks that are related to stone or metal items.") /\
  feature "craft"
  = Some (note "+2 racial bonus on Craft checks that are related to stone or metal.") /\
  (dnd35.features dwarf).*1
  = ["constitution"; "charisma"; "darkvision"; "stonecunning";
     "weapon_familiarity"; "stability"; "saving_throws"; "attack_bonus";
     "armor_class"; "appraise"; "craft"] /\
  dnd35.languages dwarf = ["Common"; "Dwarven"] /\
  dnd35.bonus_languages dwarf
  = Some ["Giant"; "Gnome"; "Goblin"; "Orc"; "Terran"; "Undercommon"] /\
  dnd35.favored_class dwarf = Some "Fighter".
Proof.
  cbv zeta. repeat split; reflexivity.
Qed.

(** ** Further properties of the core model *)

(** *** Progression and ClassLevel: indexing *)

Lemma list_getitem_negative {A : Type} (l : list A) (i : Z) :
  - Z.of_nat (length l) <= i < 0 ->
  list_getitem l i = list_getitem l (i + Z.of_nat (length l)).
Proof.
  intros Hi. rewrite (list_getitem_index l (i + _)) by lia.
  unfold list_getitem.
  destruct (Z.ltb_spec i 0) as [_|]; [|lia].
  destruct (Z.leb_spec 0 (i + Z.of_nat (length l))) as [_|]; [|lia].
  destruct (Z.ltb_spec (i + Z.of_nat (length l)) (Z.of_nat (length l)))
    as [_|]; [|lia].
  reflexivity.
Qed.

Lemma list_getitem_out_of_range {A : Type} (l : list A) (i : Z) :
  i < - Z.of_nat (length l) \/ Z.of_nat (length l) <= i ->
  list_getitem l i = Raise IndexError.
Proof.
  intros Hi. unfold list_getitem.
  destruct (Z.ltb_spec i 0) as [Hn|Hn].
  - destruct (Z.leb_spec 0 (i + Z.of_nat (length l))) as [|_]; [lia|done].
  - destruct (Z.leb_spec 0 i) as [_|]; [|lia].
    destruct (Z.ltb_spec i (Z.of_nat (length l))) as [|_]; [lia|done].
Qed.

Section progression_extras.
Context {num : Numbers}.
Implicit Types (p : Progression.t) (c : Class.t).

(** X1: indexing a Progression of length [n] follows Python's list
    indexing: an index [0 <= i < n] gives the Modifier at position [i], an
    index [-n <= i < 0] the Modifier at position [i + n], counted from the
    end, and any other index raises [IndexError]. *)
Theorem Progression_getitem_ranges p (i : Z) :
  (0 <= i < Progression.len p ->
   exists m, Progression._modifiers p !! Z.to_nat i = Some m /\
             Progression.getitem p i = Ok m) /\
  (- Progression.len p <= i < 0 ->
   exists m, Progression._modifiers p !! Z.to_nat (i + Progression.len p) = Some m /\
             Progression.getitem p i = Ok m) /\
  (i < - Progression.len p \/ Progression.len p <= i ->
   Progression.getitem p i = Raise IndexError).
Proof.
  unfold Progression.getitem, Progression.len. split; [|split].
  - intros Hi. rewrite list_getitem_index by lia.
    destruct (lookup_lt_is_Some_2 (Progression._modifiers p) (Z.to_nat i))
      as [m Hm]; [lia|].
    exists m. by rewrite Hm.
  - intros Hi. rewrite list_getitem_negative, list_getitem_index by lia.
    destruct (lookup_lt_is_Some_2 (Progression._modifiers p)
                (Z.to_nat (i + Z.of_nat (length (Progression._modifiers p)))))
      as [m Hm]; [lia|].
    exists m. by rewrite Hm.
  - apply list_getitem_out_of_range.
Qed.

(** X3: a ClassLevel whose level is negative reads its Progressions from
    the end: when [-n <= L < 0] for a Progression of length [n], the bonus
    is the one of level [L + n]; when [L < -n] the lookup raises
    [IndexError]. *)
Theorem ClassLevel_negative_level c (L : Z) :
  L < 0 ->
  ((- Progression.len (Class.base_attack_bonus c) <= L ->
    ClassLevel.base_attack_bonus (ClassLevel.init c L)
    = ClassLevel.base_attack_bonus
        (ClassLevel.init c (L + Progression.len (Class.base_attack_bonus c)))) /\
   (L < - Progression.len (Class.base_attack_bonus c) ->
    ClassLevel.base_attack_bonus (ClassLevel.init c L) = Raise IndexError)) /\
  ((- Progression.len (Class.fort_save c) <= L ->
    ClassLevel.fort_save (ClassLevel.init c L)
    = ClassLevel.fort_save
        (ClassLevel.init c (L + Progression.len (Class.fort_save c)))) /\
   (L < - Progression.len (Class.fort_save c) ->
    ClassLevel.fort_save (ClassLevel.init c L) = Raise IndexError)) /\
  ((- Progression.len (Class.ref_save c) <= L ->
    ClassLevel.ref_save (ClassLevel.init c L)
    = ClassLevel.ref_save
        (ClassLevel.init c (L + Progression.len (Class.ref_save c)))) /\
   (L < - Progression.len (Class.ref_save c) ->
    ClassLevel.ref_save (ClassLevel.init c L) = Raise IndexError)) /\
  ((- Progression.len (Class.will_save c) <= L ->
    ClassLevel.will_save (ClassLevel.init c L)
    = ClassLevel.will_save
        (ClassLevel.init c (L + Progression.len (Class.will_save c)))) /\
   (L < - Progression.len (Class.will_save c) ->
    ClassLevel.will_save (ClassLevel.init c L) = Raise IndexError)).
Proof.
  intros HL.
  unfold ClassLevel.base_attack_bonus, ClassLevel.fort_save,
    ClassLevel.ref_save, ClassLevel.will_save, ClassLevel.init,
    Progression.getitem, Progression.len.
  cbn [ClassLevel.class_ ClassLevel.level].
  repeat split; intros Hlen;
    solve [ apply list_getitem_negative; lia
          | apply list_getitem_out_of_range; lia ].
Qed.

(** What is assumed of a Modifier built from a value. *)
Hypothesis int_new : forall v ty, Modifier_int (Modifier_new v ty) = v.
Hypothesis type_new : forall v ty, Modifier_type (Modifier_new v ty) = Some ty.

(** X2: a Progression built from a name and a sequence of values has as
    many Modifiers as values; iterating over it gives, in order, Modifiers
    whose integers are the values, all of the ModifierType named by the
    name. *)
Theorem Progression_init_values (modifier_name : string) (values : list Z) :
  Progression.len (Progression.init modifier_name values)
  = Z.of_nat (length values) /\
  Modifier_int <$> Progression.iter (Progression.init modifier_name values)
  = values /\
  Forall (fun m => Modifier_type m = Some {| mt_name := modifier_name |})
         (Progression.iter (Progression.init modifier_name values)).
Proof.
  unfold Progression.len, Progression.iter, Progression.init.
  cbn [Progression._modifiers]. split; [|split].
  - by rewrite length_map.
  - induction values as [|v values IH]; [done|].
    cbn. by rewrite int_new, IH.
  - induction values as [|v values IH]; [by constructor|].
    cbn. constructor; [apply type_new|done].
Qed.

End progression_extras.

Lemma Progression_getitem_ranges_witness :
  exists m,
    Progression._modifiers (Class.fort_save sample.fighter)
      !! Z.to_nat (-1 + Progression.len (Class.fort_save sample.fighter)) = Some m /\
    Progression.getitem (Class.fort_save sample.fighter) (-1) = Ok m.
Proof.
  refine (proj1 (proj2 (@Progression_getitem_ranges spec_numbers
                          (Class.fort_save sample.fighter) (-1))) _).
  vm_compute. split; [discriminate|reflexivity].
Defined.

Lemma ClassLevel_negative_level_witness :
  ClassLevel.ref_save (ClassLevel.init sample.fighter (-4)) = Raise IndexError.
Proof.
  refine (proj2 (proj1 (proj2 (proj2 (@ClassLevel_negative_level spec_numbers
            sample.fighter (-4) _)))) _).
  - lia.
  - vm_compute. reflexivity.
Defined.

Lemma Progression_init_values_witness :
  Modifier_int <$> Progression.iter (Progression.init (num := spec_numbers)
                                       "will_save" [0; 0; 1])
  = [0; 0; 1].
Proof.
  refine (proj1 (proj2 (@Progression_init_values spec_numbers
                          spec_int_new spec_type_new "will_save" [0; 0; 1]))).
Defined.

(** *** AbilityScore and Size: how the derived modifiers move *)

Section score_extras.
Context {num : Numbers}.
Implicit Types (a b : AbilityScore.t) (sz : Size.t).

Hypothesis int_new : forall v ty, Modifier_int (Modifier_new v ty) = v.

(** X4: adding integers to an AbilityScore composes, adding 0 changes
    nothing, and adding [2 * k] raises the modifier by exactly [k]. *)
Theorem AbilityScore_add_steps a (x y k : Z) :
  AbilityScore.add (AbilityScore.add a x) y = AbilityScore.add a (x + y) /\
  AbilityScore.add a 0 = a /\
  Modifier_int (AbilityScore.modifier (AbilityScore.add a (2 * k)))
  = Modifier_int (AbilityScore.modifier a) + k.
Proof.
  destruct a as [s]. unfold AbilityScore.add, AbilityScore.modifier.
  cbn [AbilityScore.score]. rewrite !int_new. split; [|split].
  - f_equal. lia.
  - f_equal. lia.
  - replace (s + 2 * k - 10) with (s - 10 + k * 2) by lia.
    apply Z.div_add. lia.
Qed.

(** X5: the modifier never decreases when the score increases; it is
    negative exactly for the scores below 10 and zero exactly for the
    scores 10 and 11. *)
Theorem AbilityScore_modifier_monotone a b :
  (AbilityScore.score a <= AbilityScore.score b ->
   Modifier_int (AbilityScore.modifier a)
   <= Modifier_int (AbilityScore.modifier b)) /\
  (Modifier_int (AbilityScore.modifier a) < 0 <-> AbilityScore.score a < 10) /\
  (Modifier_int (AbilityScore.modifier a) = 0
   <-> 10 <= AbilityScore.score a <= 11).
Proof.
  unfold AbilityScore.modifier. rewrite !int_new. split; [|split].
  - intros Hle. apply Z.div_le_mono; lia.
  - pose proof (Z.mul_div_le (AbilityScore.score a - 10) 2 ltac:(lia)).
    pose proof (Z.mul_succ_div_gt (AbilityScore.score a - 10) 2 ltac:(lia)).
    lia.
  - pose proof (Z.mul_div_le (AbilityScore.score a - 10) 2 ltac:(lia)).
    pose proof (Z.mul_succ_div_gt (AbilityScore.score a - 10) 2 ltac:(lia)).
    lia.
Qed.

Hypothesis int_neg : forall m, Modifier_int (Modifier_neg m) = - Modifier_int m.
Hypothesis int_rmul :
  forall k m, Modifier_int (Modifier_rmul k m) = k * Modifier_int m.

(** X6: for every Size, the attack and armor-class modifiers are the same
    Modifier, the hide modifier is the opposite of the grapple modifier in
    value, and the grapple modifier is minus four times the attack
    modifier; a Size built with a greater scale has an attack modifier that
    is no greater and a grapple modifier that is no smaller. *)
Theorem Size_modifiers_related sz (n1 n2 : string) (s1 s2 : Z) :
  Size.attack sz = Size.armor_class sz /\
  Modifier_int (Size.hide sz) = - Modifier_int (Size.grapple sz) /\
  Modifier_int (Size.grapple sz) = -4 * Modifier_int (Size.attack sz) /\
  (s1 <= s2 ->
   Modifier_int (Size.attack (Size.init n2 s2))
   <= Modifier_int (Size.attack (Size.init n1 s1)) /\
   Modifier_int (Size.grapple (Size.init n1 s1))
   <= Modifier_int (Size.grapple (Size.init n2 s2))).
Proof.
  unfold Size.attack, Size.armor_class, Size.grapple, Size.hide, Size.init.
  cbn [Size._modifier]. rewrite !int_neg, !int_rmul, !int_new.
  repeat split; lia.
Qed.

End score_extras.

Lemma AbilityScore_add_steps_witness :
  Modifier_int (AbilityScore.modifier (num := spec_numbers)
                  (AbilityScore.add (AbilityScore.init (Some 13)) (2 * 3)))
  = Modifier_int (AbilityScore.modifier (num := spec_numbers)
                    (AbilityScore.init (Some 13))) + 3.
Proof.
  refine (proj2 (proj2 (@AbilityScore_add_steps spec_numbers spec_int_new
                          (AbilityScore.init (Some 13)) 0 0 3))).
Defined.

Lemma AbilityScore_modifier_monotone_witness :
  Modifier_int (AbilityScore.modifier (num := spec_numbers)
                  (AbilityScore.init (Some 7)))
  <= Modifier_int (AbilityScore.modifier (num := spec_numbers)
                     (AbilityScore.init (Some 12))).
Proof.
  refine (proj1 (@AbilityScore_modifier_monotone spec_numbers spec_int_new
                   (AbilityScore.init (Some 7)) (AbilityScore.init (Some 12))) _).
  cbn. lia.
Defined.

Lemma Size_modifiers_related_witness :
  Modifier_int (Size.attack (num := spec_numbers) (Size.init "Huge" (-2)))
  <= Modifier_int (Size.attack (num := spec_numbers) (Size.init "Colossal" (-8))).
Proof.
  refine (proj1 (proj2 (proj2 (proj2
            (@Size_modifiers_related spec_numbers
               spec_int_new spec_int_neg spec_int_rmul
               sample.medium "Colossal" "Huge" (-8) (-2)))) _)).
  lia.
Defined.

(** *** Race: features, defaults and the save setters *)

Section race_extras.
Context {num : Numbers}.
Implicit Types (self : Race.t) (kw : kwargs) (v : Value).

(** An attribute that no keyword of the features writes is as [__init__]
    left it before the loop. *)
Lemma features_loop_frame kw (a : string) :
  (forall k, k ∈ kw.*1 ->
     forall self v self1,
       Race.setattr self k v = Ok self1 -> dict self1 !! a = dict self !! a) ->
  forall self self',
    foldl (fun acc kv => self ← acc; Race.setattr self kv.1 kv.2) (Ok self) kw
    = Ok self' ->
    dict self' !! a = dict self !! a.
Proof.
  induction kw as [|[k v] kw IH]; intros Hk self self' Hloop.
  { cbn in Hloop. by injection Hloop as <-. }
  cbn [foldl mbind result_bind fst snd] in Hloop.
  destruct (Race.setattr self k v) as [self1|e] eqn:Hset;
    [|by rewrite features_loop_Raise in Hloop].
  rewrite (IH (fun k' Hk' => Hk k' ltac:(cbn; apply elem_of_cons; by right))
              self1 self' Hloop).
  apply Hk with k v; [apply elem_of_cons; by left|done].
Qed.




End race_extras.




(** *** ClassFeature: declarations and lookups *)

Section class_feature_extras.
Context {num : Numbers}.
Implicit Types (self : ClassFeature.t) (level lvl : Z) (a : Ability.t)
  (kw : list (string * Ability.t)).

(** The dictionary after the comprehension has run over [kw], starting
    from [d]. *)
Lemma progression_loop_lookup (ordinal : string -> Z) kw
    (d : gmap Z Ability.t) lvl :
  (forall k, k ∈ kw.*1 -> ordinal k <> lvl) ->
  foldl (fun d kv => <[ordinal kv.1 := kv.2]> d) d kw !! lvl = d !! lvl.
Proof.
  revert d. induction kw as [|[k a] kw IH]; intros d Hk; [done|].
  cbn [foldl fst snd]. rewrite IH.
  - apply lookup_insert_ne. apply Hk. apply elem_of_cons. by left.
  - intros k' Hk'. apply Hk. cbn. apply elem_of_cons. by right.
Qed.

Lemma progression_loop_declared (ordinal : string -> Z) kw
    (d : gmap Z Ability.t) lvl :
  is_Some (foldl (fun d kv => <[ordinal kv.1 := kv.2]> d) d kw !! lvl) ->
  is_Some (d !! lvl) \/ exists k, k ∈ kw.*1 /\ ordinal k = lvl.
Proof.
  revert d. induction kw as [|[k a] kw IH]; intros d Hs; [by left|].
  cbn [foldl fst snd] in Hs. apply IH in Hs as [Hs|(k' & Hk' & Heq)].
  - destruct (decide (ordinal k = lvl)) as [Heq|Hne].
    + right. exists k. split; [|done]. apply elem_of_cons. by left.
    + left. by rewrite lookup_insert_ne in Hs.
  - right. exists k'. split; [|done]. cbn. apply elem_of_cons. by right.
Qed.

(** X11: an Ability declared for a level that no later keyword declares
    again is the one stored for that level, and indexing the ClassFeature
    at exactly that level returns it; when two keywords stand for the same
    level the later declaration is the one kept.  The stored levels are the
    levels of the keywords and no others. *)
Theorem ClassFeature_init_declared (ordinal : string -> Z)
    (name : string) (description : option string) kw1 (k : string) a kw2 :
  (forall k', k' ∈ kw2.*1 -> ordinal k' <> ordinal k) ->
  let feature :=
    ClassFeature.init ordinal name description (kw1 ++ (k, a) :: kw2) in
  ClassFeature.progression feature !! ordinal k = Some a /\
  ClassFeature.getitem feature (ordinal k) = Ok a /\
  (forall lvl, is_Some (ClassFeature.progression feature !! lvl) ->
               exists k', k' ∈ ((kw1 ++ (k, a) :: kw2)%list).*1 /\ ordinal k' = lvl).
Proof.
  intros Hlater feature.
  assert (ClassFeature.progression feature !! ordinal k = Some a) as Hp.
  { subst feature. unfold ClassFeature.init. cbn [ClassFeature.progression].
    rewrite foldl_app. cbn [foldl fst snd].
    rewrite progression_loop_lookup by done. apply lookup_insert_eq. }
  split; [done|]. split.
  - apply getitem_greatest with (ordinal k); [done|lia|]. by intros l' _ Hl'.
  - intros lvl Hs. subst feature.
    unfold ClassFeature.init in Hs. cbn [ClassFeature.progression] in Hs.
    apply progression_loop_declared in Hs as [Hs|Hs]; [|done].
    rewrite lookup_empty in Hs. by destruct Hs.
Qed.

(** X12: indexing a ClassFeature returns an Ability registered at a
    declared level not above the query, or raises [ValueError]; it never
    raises [KeyError], and with no declaration at all it raises
    [ValueError] at every level. *)
Theorem ClassFeature_getitem_outcomes self level :
  ((exists l a, ClassFeature.progression self !! l = Some a /\ l <= level /\
                ClassFeature.getitem self level = Ok a) \/
   ClassFeature.getitem self level = Raise ValueError) /\
  (ClassFeature.progression self = ∅ ->
   ClassFeature.getitem self level = Raise ValueError).
Proof.
  split.
  - destruct (ClassFeature.candidates self level) as [|x l] eqn:Hc.
    + right. unfold ClassFeature.getitem. by rewrite Hc.
    + left.
      assert (x ∈ ClassFeature.candidates self level) as Hin
        by (rewrite Hc; apply elem_of_cons; by left).
      apply elem_of_candidates in Hin as [Hs Hle].
      destruct (getitem_some_greatest self level x Hs Hle)
        as (l' & a & Ha & Hl' & _ & Hget).
      eauto.
  - intros Hempty. apply getitem_below. intros l' Hs.
    rewrite Hempty, lookup_empty in Hs. by destruct Hs.
Qed.

(** X13: an Ability persists until a higher declared level supersedes it:
    when no level is declared above [level] and up to [level'], indexing
    at [level'] gives what indexing at [level] gives. *)
Theorem ClassFeature_getitem_persists self level (level' : Z) :
  level <= level' ->
  (forall l, is_Some (ClassFeature.progression self !! l) ->
             ~ (level < l <= level')) ->
  ClassFeature.getitem self level' = ClassFeature.getitem self level.
Proof.
  intros Hle Hgap.
  destruct (ClassFeature.candidates self level) as [|x l] eqn:Hc.
  - assert (forall l', is_Some (ClassFeature.progression self !! l') ->
                       level < l') as Hlow.
    { intros l' Hs. destruct (decide (l' <= level)) as [Hl'|]; [|lia].
      assert (l' ∈ ClassFeature.candidates self level) as Hin
        by (apply elem_of_candidates; eauto).
      rewrite Hc in Hin. by apply elem_of_nil in Hin. }
    rewrite (getitem_below self level) by done.
    apply getitem_below. intros l' Hs.
    specialize (Hlow l' Hs). specialize (Hgap l' Hs). lia.
  - assert (x ∈ ClassFeature.candidates self level) as Hin
      by (rewrite Hc; apply elem_of_cons; by left).
    apply elem_of_candidates in Hin as [Hs Hx].
    destruct (getitem_some_greatest self level x Hs Hx)
      as (l' & a & Ha & Hl' & Hgreatest & Hget).
    rewrite Hget. apply getitem_greatest with l'; [done|lia|].
    intros l'' Hs'' Hl''. specialize (Hgap l'' Hs'').
    apply Hgreatest; [done|lia].
Qed.

End class_feature_extras.

Lemma ClassFeature_init_declared_witness :
  ClassFeature.getitem sample.evasion_feature (sample.ordinal "tenth")
  = Ok sample.improved_evasion.
Proof.
  refine (proj1 (proj2 (@ClassFeature_init_declared spec_numbers
            sample.ordinal "Evasion" None [("second", sample.evasion)]
            "tenth" sample.improved_evasion [] _))).
  intros k' Hk'. by apply elem_of_nil in Hk'.
Defined.

Lemma ClassFeature_getitem_outcomes_witness :
  ClassFeature.getitem (num := spec_numbers)
    (ClassFeature.init sample.ordinal "Trapfinding" None []) 4
  = Raise ValueError.
Proof.
  refine (proj2 (@ClassFeature_getitem_outcomes spec_numbers
                   (ClassFeature.init sample.ordinal "Trapfinding" None []) 4) _).
  reflexivity.
Defined.

Lemma ClassFeature_getitem_persists_witness :
  ClassFeature.getitem sample.evasion_feature 9
  = ClassFeature.getitem sample.evasion_feature 2.
Proof.
  refine (@ClassFeature_getitem_persists spec_numbers
            sample.evasion_feature 2 9 _ _).
  - lia.
  - intros l [a Ha] Hl.
    destruct (decide (l = 10)) as [->|]; [lia|].
    destruct (decide (l = 2)) as [->|]; [lia|].
    cbn in Ha. by rewrite !lookup_insert_ne, lookup_empty in Ha.
Defined.

(** *** Ability: what the constructor stores *)

Section ability_extras.
Context {num : Numbers}.
Implicit Types (self : Ability.t) (kw : kwargs) (v : Value).

(** The loop over the features raises nothing when no keyword names a
    property of the class or one of the three names that cannot be
    assigned. *)
Lemma ability_loop_Ok kw self :
  (forall k, k ∈ kw.*1 -> k ∉ Ability.ignore) ->
  "__class__" ∉ kw.*1 -> "__dict__" ∉ kw.*1 -> "__weakref__" ∉ kw.*1 ->
  foldl (fun acc kv => self ← acc; Ability.setattr self kv.1 kv.2) (Ok self) kw
  = Ok (foldl (fun self kv => store self kv.1 kv.2) self kw).
Proof.
  revert self. induction kw as [|[k v] kw IH]; intros self Hk; [done|].
  cbn [fmap list_fmap fst].
  intros [Hc Hcs]%not_elem_of_cons [Hd Hds]%not_elem_of_cons
         [Hw Hws]%not_elem_of_cons.
  cbn [foldl fst snd]. cbn [mbind result_bind].
  unfold Ability.setattr at 2. case_decide as Hin.
  - exfalso. revert Hin. apply Hk. apply elem_of_cons. by left.
  - rewrite object_setattr_Ok by done.
    apply IH; [|done..]. intros k' Hk'. apply Hk. cbn. apply elem_of_cons. by right.
Qed.

Lemma store_loop_lookup kw (a : string) self :
  NoDup kw.*1 ->
  dict (foldl (fun self kv => store self kv.1 kv.2) self kw) !! a
  = match kwargs_get kw a with
    | Some v => Some v
    | None => dict self !! a
    end.
Proof.
  revert self. induction kw as [|[k v] kw IH]; intros self Hnd; [done|].
  cbn in Hnd. apply NoDup_cons in Hnd as [Hk Hnd].
  cbn [foldl kwargs_get fst snd]. rewrite IH by done.
  case_decide as Heq.
  - subst k. rewrite kwargs_get_None by done.
    cbn [dict store]. apply lookup_insert_eq.
  - destruct (kwargs_get kw a); [done|].
    cbn [dict store]. by apply lookup_insert_ne.
Qed.


End ability_extras.


(** *** Character: how the level moves *)

Section character_extras.
Context {num : Numbers}.
Implicit Types (race : Race.t) (classes : gmap positive Z) (feats : list Feat.t).

(** X15: the level of a Character does not change when the levels held in
    a class it already has are changed, and goes up by one when a class it
    did not have is entered, whatever the number of levels; it is never
    negative, it is zero exactly when no class is held, and it does not
    depend on the race or on the feats. *)
Theorem Character_level_steps race classes feats (c : positive) (n : Z) :
  (is_Some (classes !! c) ->
   Character.level (Character.init race (<[c := n]> classes) feats)
   = Character.level (Character.init race classes feats)) /\
  (classes !! c = None ->
   Character.level (Character.init race (<[c := n]> classes) feats)
   = 1 + Character.level (Character.init race classes feats)) /\
  0 <= Character.level (Character.init race classes feats) /\
  (Character.level (Character.init race classes feats) = 0 <-> classes = ∅) /\
  (forall race' feats',
     Character.level (Character.init race' classes feats')
     = Character.level (Character.init race classes feats)).
Proof.
  rewrite !level_size. repeat split.
  - intros Hs. by rewrite map_size_insert_Some.
  - intros Hn. rewrite map_size_insert_None by done. lia.
  - lia.
  - intros Hz. apply map_size_empty_iff. lia.
  - intros ->. by rewrite map_size_empty.
  - intros race' feats'. by rewrite level_size.
Qed.

End character_extras.

Lemma Character_level_steps_witness :
  Character.level
    (Character.init sample.human (<[1%positive := 7]> {[1%positive := 3]}) [])
  = Character.level (Character.init sample.human {[1%positive := 3]} []).
Proof.
  refine (proj1 (@Character_level_steps spec_numbers
                   sample.human {[1%positive := 3]} [] 1%positive 7) _).
  exists 3. reflexivity.
Defined.

(** *** The legacy catalog as a whole *)

(** X16: the nine sizes of the catalog have distinct names, their
    magnitudes read backwards are the opposites of the magnitudes read
    forwards, and medium is the only size of magnitude 0. *)
Theorem legacy_sizes_symmetric :
  NoDup dnd35.srd.sizes.*1 /\
  reverse (dnd35.magnitude <$> dnd35.srd.sizes.*2)
  = Z.opp <$> (dnd35.magnitude <$> dnd35.srd.sizes.*2) /\
  filter (fun ns => dnd35.magnitude ns.2 = 0) dnd35.srd.sizes
  = [("medium", dnd35.srd.medium)].
Proof.
  split; [|split].
  - apply (bool_decide_unpack _). vm_compute. exact I.
  - reflexivity.
  - reflexivity.
Qed.

(** X17: each of the three races of the catalog is of size medium, speaks
    Common, has no bonus language that it already speaks, and names each of
    its features once; human has no feature, and the three saves of elf
    carry the same Modifier. *)
Theorem legacy_races_consistent :
  Forall (fun r =>
            dnd35.size r = dnd35.srd.medium /\
            "Common" ∈ dnd35.languages r /\
            Forall (fun l => l ∉ default [] (dnd35.bonus_languages r))
                   (dnd35.languages r) /\
            NoDup (dnd35.features r).*1)
         [dnd35.srd.human; dnd35.srd.dwarf; dnd35.srd.elf] /\
  dnd35.features dnd35.srd.human = [] /\
  dnd35.feature (dnd35.features dnd35.srd.elf) "fortitude"
  = dnd35.feature (dnd35.features dnd35.srd.elf) "reflex" /\
  dnd35.feature (dnd35.features dnd35.srd.elf) "reflex"
  = dnd35.feature (dnd35.features dnd35.srd.elf) "will".
Proof.
  split; [|by repeat split].
  repeat constructor; try reflexivity;
    apply (bool_decide_unpack _); vm_compute; exact I.
Qed.
